(** * nba-bad-call-tracker: the front-end page and its two configurations

    The repository holds three artifacts:
    - [app/page.tsx]: the [Home] page component, a function without
      parameters that returns one JSX literal;
    - [next.config.js]: the framework configuration with the list
      [experimental.allowedDevOrigins];
    - the Tailwind configuration with [content], [theme.extend] and
      [plugins].

    The JSX literal is kept as the syntax tree the source spells out, raw
    whitespace included, and is evaluated to a React element tree by the
    rules of the JSX language (text cleaning, host tags against identifiers
    in scope).  The configurations are records of the exported objects. *)

From stdpp Require Import gmap strings list.
From Stdlib Require Import Ascii String.

Set Warnings "-register-all".
Local Open Scope string_scope.
Local Open Scope list_scope.

(** ** Characters and text helpers *)

Module Text.

Definition chars (s : string) : list ascii := list_ascii_of_string s.
Definition text (l : list ascii) : string := string_of_list_ascii l.

Definition LF : ascii := ascii_of_nat 10.
Definition CR : ascii := ascii_of_nat 13.
Definition TAB : ascii := ascii_of_nat 9.
Definition SP : ascii := " "%char.

(** One line feed, as it stands in the source between two lines. *)
Definition nl : string := String LF EmptyString.

Definition is_char (c d : ascii) : bool := Ascii.eqb c d.

(** [split_on sep l] cuts [l] at every [sep]; it always yields at least
    one piece, like JavaScript's [String.prototype.split]. *)
Fixpoint split_on (sep : ascii) (l : list ascii) : list (list ascii) :=
  match l with
  | [] => [[]]
  | c :: l' =>
      if is_char c sep then [] :: split_on sep l'
      else match split_on sep l' with
           | [] => [[c]]
           | piece :: pieces => (c :: piece) :: pieces
           end
  end.

Fixpoint drop_while (p : ascii -> bool) (l : list ascii) : list ascii :=
  match l with
  | [] => []
  | c :: l' => if p c then drop_while p l' else l
  end.

Definition drop_while_end (p : ascii -> bool) (l : list ascii) : list ascii :=
  rev (drop_while p (rev l)).

Fixpoint starts_with (pre l : list ascii) : bool :=
  match pre, l with
  | [], _ => true
  | _ :: _, [] => false
  | a :: pre', b :: l' => is_char a b && starts_with pre' l'
  end.

(** [ends_with suf l]: some tail of [l] is [suf]. *)
Fixpoint ends_with (suf l : list ascii) : bool :=
  bool_decide (l = suf) ||
  match l with
  | [] => false
  | _ :: l' => ends_with suf l'
  end.

Fixpoint strip_prefix (pre l : list ascii) : option (list ascii) :=
  match pre, l with
  | [], _ => Some l
  | _ :: _, [] => None
  | a :: pre', b :: l' => if is_char a b then strip_prefix pre' l' else None
  end.

Definition digit_value (c : ascii) : option N :=
  let n := N_of_ascii c in
  if (48 <=? n)%N && (n <=? 57)%N then Some (n - 48)%N else None.

Fixpoint parse_decimal_from (acc : N) (l : list ascii) : option N :=
  match l with
  | [] => Some acc
  | c :: l' =>
      match digit_value c with
      | Some d => parse_decimal_from (10 * acc + d)%N l'
      | None => None
      end
  end.

(** A non-empty run of decimal digits, read as a number. *)
Definition parse_decimal (l : list ascii) : option N :=
  match l with
  | [] => None
  | _ :: _ => parse_decimal_from 0%N l
  end.

End Text.

(** ** JSX: syntax, values and evaluation *)

Module Jsx.
Import Text.

(** The syntax of a JSX expression.  Every attribute of the page is a
    string literal, so an attribute is a name with its literal. *)
Inductive jsx : Type :=
| JSXText (raw : string)
| JSXElement (name : string) (attributes : list (string * string))
    (children : list jsx).

(** What an element's type is after evaluation: a lower-case tag stays
    a host tag (a string), any other name is an identifier that is looked
    up in scope. *)
Inductive element_type : Type :=
| Host (tag : string)
| Component (ident : string).

(** A React element tree.  [props] holds the attributes; the children are
    kept beside it, in document order. *)
Inductive node : Type :=
| TextNode (value : string)
| Element (type : element_type) (props : gmap string string)
    (children : list node).

Inductive js_error : Type :=
| ReferenceError (ident : string).

(** The outcome of evaluating a JavaScript expression or call. *)
Inductive completion (A : Type) : Type :=
| Normal (value : A)
| Throw (error : js_error).
Arguments Normal {A} value.
Arguments Throw {A} error.

(** Sequencing: an abrupt completion skips what follows. *)
#[export] Instance completion_ret : MRet completion := fun A v => Normal v.
#[export] Instance completion_bind : MBind completion := fun A B k c =>
  match c with
  | Normal v => k v
  | Throw e => Throw e
  end.
#[export] Instance completion_fmap : FMap completion := fun A B f c =>
  match c with
  | Normal v => Normal (f v)
  | Throw e => Throw e
  end.

(** *** Text cleaning

    JSX text is split into lines; tabs count as spaces; every line but the
    first loses its leading spaces and every line but the last its trailing
    spaces; empty lines vanish and the remaining ones are joined by one
    space. *)

(** JavaScript splits on CR LF, LF or CR: a CR LF pair is first folded
    into one LF, then every CR is a line end of its own. *)
Fixpoint normalize_newlines (l : list ascii) : list ascii :=
  match l with
  | [] => []
  | c :: l' =>
      if is_char c CR then
        match l' with
        | d :: _ => if is_char d LF then normalize_newlines l'
                    else LF :: normalize_newlines l'
        | [] => [LF]
        end
      else c :: normalize_newlines l'
  end.

Definition split_lines (raw : list ascii) : list (list ascii) :=
  split_on LF (normalize_newlines raw).

Definition is_blank_char (c : ascii) : bool := is_char c SP || is_char c TAB.

Definition has_non_blank (line : list ascii) : bool :=
  existsb (fun c => negb (is_blank_char c)) line.

(** Index of the last line holding something else than spaces and tabs;
    0 when there is none. *)
Fixpoint last_non_empty_line_from (i last : nat) (lines : list (list ascii))
  : nat :=
  match lines with
  | [] => last
  | line :: lines' =>
      last_non_empty_line_from (S i)
        (if has_non_blank line then i else last) lines'
  end.

Definition last_non_empty_line (lines : list (list ascii)) : nat :=
  last_non_empty_line_from 0 0 lines.

Definition tabs_to_spaces (line : list ascii) : list ascii :=
  map (fun c => if is_char c TAB then SP else c) line.

Definition trim_line (is_first is_last : bool) (line : list ascii)
  : list ascii :=
  let l0 := tabs_to_spaces line in
  let l1 := if is_first then l0 else drop_while (is_char SP) l0 in
  if is_last then l1 else drop_while_end (is_char SP) l1.

Fixpoint clean_lines (i count last_non_empty : nat)
  (lines : list (list ascii)) : list ascii :=
  match lines with
  | [] => []
  | line :: lines' =>
      let trimmed :=
        trim_line (Nat.eqb i 0) (Nat.eqb i (count - 1)) line in
      let piece :=
        match trimmed with
        | [] => []
        | _ :: _ =>
            if Nat.eqb i last_non_empty then trimmed else trimmed ++ [SP]
        end in
      piece ++ clean_lines (S i) count last_non_empty lines'
  end.

Definition clean_text (raw : string) : string :=
  let lines := split_lines (chars raw) in
  text (clean_lines 0 (List.length lines) (last_non_empty_line lines) lines).

(** *** Evaluation *)

Definition is_lower (c : ascii) : bool :=
  let n := nat_of_ascii c in (97 <=? n)%nat && (n <=? 122)%nat.

(** A name that starts with a lower-case letter is a host tag; any other
    name is an identifier, and reading an identifier that is not in scope
    throws. *)
Definition resolve_type (scope : gset string) (name : string)
  : completion element_type :=
  match name with
  | String c _ =>
      if is_lower c then Normal (Host name)
      else if bool_decide (name ∈ scope) then Normal (Component name)
      else Throw (ReferenceError name)
  | EmptyString => Throw (ReferenceError name)
  end.

(** Attributes become the props object, a later duplicate overriding an
    earlier one. *)
Definition make_props (attributes : list (string * string))
  : gmap string string :=
  foldl (fun m kv => <[kv.1 := kv.2]> m) ∅ attributes.

Fixpoint eval_jsx (scope : gset string) (e : jsx) : completion node :=
  match e with
  | JSXText raw => Normal (TextNode (clean_text raw))
  | JSXElement name attributes children =>
      ty ← resolve_type scope name;
      kids ← (fix eval_children (cs : list jsx) : completion (list node) :=
                 match cs with
                 | [] => Normal []
                 | JSXText raw :: cs' =>
                     rest ← eval_children cs';
                     match clean_text raw with
                     | EmptyString => Normal rest
                     | s => Normal (TextNode s :: rest)
                     end
                 | (JSXElement _ _ _ as c) :: cs' =>
                     n ← eval_jsx scope c;
                     rest ← eval_children cs';
                     Normal (n :: rest)
                 end) children;
      Normal (Element ty (make_props attributes) kids)
  end.

(** *** Queries on an element tree *)

Definition heading_tags : list string := ["h1"; "h2"; "h3"; "h4"; "h5"; "h6"].

Definition is_heading (ty : element_type) : bool :=
  match ty with
  | Host tag => bool_decide (tag ∈ heading_tags)
  | Component _ => false
  end.

Definition is_paragraph (ty : element_type) : bool :=
  match ty with
  | Host tag => bool_decide (tag = "p")
  | Component _ => false
  end.

(** All elements of the tree whose type satisfies [p], in document
    order, the root included. *)
Fixpoint select (p : element_type -> bool) (n : node) : list node :=
  match n with
  | TextNode _ => []
  | Element ty _ kids =>
      (if p ty then [n] else []) ++ List.concat (map (select p) kids)
  end.

(** The text of a node: its text descendants, concatenated. *)
Fixpoint text_content (n : node) : string :=
  match n with
  | TextNode s => s
  | Element _ _ kids => String.concat "" (map text_content kids)
  end.

Definition node_children (n : node) : list node :=
  match n with
  | TextNode _ => []
  | Element _ _ kids => kids
  end.

Definition node_type (n : node) : option element_type :=
  match n with
  | TextNode _ => None
  | Element ty _ _ => Some ty
  end.

(** The props of an element that come from its JSX attributes, as the
    list of their entries: all its props but [children].  A text node has
    none. *)
Definition node_attributes (n : node) : list (string * string) :=
  match n with
  | TextNode _ => []
  | Element _ props _ => map_to_list props
  end.

(** The names of all the props of an element: those of its attributes,
    and [children] when the element has children (an attribute of that
    name is then overridden, not doubled). *)
Definition prop_names (n : node) : list string :=
  match n with
  | TextNode _ => []
  | Element _ props kids =>
      (map_to_list props).*1 ++
      match kids with
      | [] => []
      | _ :: _ =>
          if bool_decide ("children" ∈ dom props) then [] else ["children"]
      end
  end.

(** Every element of the tree, in document order. *)
Definition elements (n : node) : list node := select (fun _ => true) n.

End Jsx.

(** ** app/page.tsx *)

Module Page.
Import Text Jsx.

Definition title_text : string := "NBA Bad Call Tracker".

Definition description_text : string :=
  "Track and review questionable referee decisions in the final moments of NBA games.".

(** The JSX literal that [Home] returns, character for character: the
    line breaks and the indentation between the tags are text children. *)
Definition home_jsx : jsx :=
  JSXElement "main"
    [("className",
      "flex min-h-screen flex-col items-center justify-center p-12 text-center")]
    [ JSXText (nl +:+ "      ");
      JSXElement "h1" [("className", "text-4xl font-bold mb-6")]
        [ JSXText "NBA Bad Call Tracker" ];
      JSXText (nl +:+ "      ");
      JSXElement "p"
        [("className", "text-lg text-gray-600 dark:text-gray-300 max-w-xl")]
        [ JSXText (nl +:+
            "        Track and review questionable referee decisions in the final moments of NBA games."
            +:+ nl +:+ "      ") ];
      JSXText (nl +:+ "    ") ].

(** The identifiers the module binds: the function declaration itself. *)
Definition module_scope : gset string := {[ "Home" ]}.

(** [export default function Home()]: no parameter is declared, so
    whatever arguments a caller passes are dropped. *)
Definition Home {V : Type} (arguments : list V) : completion node :=
  eval_jsx module_scope home_jsx.

End Page.

(** ** next.config.js *)

Module NextConfig.
Import Text.

Record Experimental : Type := { allowedDevOrigins : list string }.

Record Config : Type := { experimental : Experimental }.

Definition module_exports : Config :=
  {| experimental :=
       {| allowedDevOrigins :=
            [ "http://localhost:3000";
              "http://localhost:3001";
              "http://localhost:3002";
              "http://localhost:3003" ] |} |}.

(** The port of an origin on the local host over plain http, when the
    origin has that shape. *)
Definition localhost_port (origin : string) : option N :=
  rest ← strip_prefix (chars "http://localhost:") (chars origin);
  parse_decimal rest.

Definition begins_with (pre s : string) : bool :=
  starts_with (chars pre) (chars s).

End NextConfig.

(** ** tailwind.config.js *)

Module TailwindConfig.

(** A theme value is a string or a nested table of theme values. *)
Inductive theme_value : Type :=
| ThemeString (s : string)
| ThemeTable (entries : list (string * theme_value)).

Record Theme : Type := { extend : gmap string theme_value }.

(** A plugin is referred to by the module that provides it. *)
Inductive plugin : Type :=
| PluginModule (name : string).

Record Config : Type := {
  content : list string;
  theme : Theme;
  plugins : list plugin
}.

Definition module_exports : Config :=
  {| content := [ "./app/**/*.{js,ts,jsx,tsx}" ];
     theme := {| extend := ∅ |};
     plugins := [] |}.

End TailwindConfig.

(** ** The glob language of the [content] patterns

    A content pattern is written in the glob language of the scanner that
    reads the configuration: [{a,b}] is an alternation, [/] separates path
    segments, a segment [**] stands for any number of directories, [*] for
    any run of characters inside one segment, and a leading [./] is
    dropped.  Neither [**] nor a segment's leading [*] ever takes the
    names [.] and [..]; with the option [dot] off they take no name that
    starts with a dot. *)

Module Glob.
Import Text.

Definition SLASH : ascii := "/"%char.
Definition DOT : ascii := "."%char.

(** *** Brace expansion *)

Fixpoint join_with (sep : ascii) (pieces : list (list ascii)) : list ascii :=
  match pieces with
  | [] => []
  | [piece] => piece
  | piece :: pieces' => piece ++ sep :: join_with sep pieces'
  end.

(** [expand_from done group s]: [done] holds the expansions of what was
    read so far; [group] is [Some (alts, cur)] inside a brace group, with
    the finished alternatives [alts] and the current one [cur]. *)
Fixpoint expand_from (done : list (list ascii))
  (group : option (list (list ascii) * list ascii)) (s : list ascii)
  : list (list ascii) :=
  match s with
  | [] =>
      match group with
      | None => done
      | Some (alts, cur) =>
          (* a group that is never closed is literal text *)
          map (fun d => d ++ "{"%char :: join_with ","%char (alts ++ [cur]))
            done
      end
  | c :: s' =>
      match group with
      | None =>
          if is_char c "{"%char then expand_from done (Some ([], [])) s'
          else expand_from (map (fun d => d ++ [c]) done) None s'
      | Some (alts, cur) =>
          if is_char c ","%char then expand_from done (Some (alts ++ [cur], [])) s'
          else if is_char c "}"%char then
            expand_from
              (d ← done; alt ← alts ++ [cur]; [d ++ alt]) None s'
          else expand_from done (Some (alts, cur ++ [c])) s'
      end
  end.

Definition expand_braces (pattern : list ascii) : list (list ascii) :=
  expand_from [[]] None pattern.

(** *** Patterns without braces *)

Inductive token : Type :=
| Lit (c : ascii)
| Star.

Inductive segment : Type :=
| Globstar
| Seg (tokens : list token).

Definition parse_token (c : ascii) : token :=
  if is_char c "*"%char then Star else Lit c.

Definition parse_segment (s : list ascii) : segment :=
  if bool_decide (s = chars "**") then Globstar else Seg (map parse_token s).

Definition strip_dot_slash (s : list ascii) : list ascii :=
  match strip_prefix [DOT; SLASH] s with
  | Some rest => rest
  | None => s
  end.

Definition split_path (path : list ascii) : list (list ascii) :=
  split_on SLASH (strip_dot_slash path).

Definition parse_pattern (pattern : list ascii) : list segment :=
  map parse_segment (split_path pattern).

(** *** Matching *)

Definition hidden (name : list ascii) : bool :=
  match name with
  | c :: _ => is_char c DOT
  | [] => false
  end.

(** The names [.] and [..]. *)
Definition is_dots (name : list ascii) : bool :=
  bool_decide (name = [DOT]) || bool_decide (name = [DOT; DOT]).

(** What [**] and a leading [*] may stand for. *)
Definition wildcard_takes (dot : bool) (name : list ascii) : bool :=
  if dot then negb (is_dots name) else negb (hidden name).

Fixpoint match_tokens (p : list token) (s : list ascii) : bool :=
  match p with
  | [] => bool_decide (s = [])
  | Lit c :: p' =>
      match s with
      | d :: s' => is_char c d && match_tokens p' s'
      | [] => false
      end
  | Star :: p' =>
      (fix skip (s : list ascii) : bool :=
         match_tokens p' s ||
         match s with
         | [] => false
         | _ :: s' => skip s'
         end) s
  end.

Definition match_segment (dot : bool) (p : list token) (name : list ascii)
  : bool :=
  match p with
  | Star :: _ => wildcard_takes dot name && match_tokens p name
  | _ => match_tokens p name
  end.

Fixpoint match_segments (dot : bool) (p : list segment)
  (path : list (list ascii)) : bool :=
  match p with
  | [] => bool_decide (path = [])
  | Seg tokens :: p' =>
      match path with
      | name :: path' =>
          match_segment dot tokens name && match_segments dot p' path'
      | [] => false
      end
  | Globstar :: p' =>
      (fix descend (path : list (list ascii)) : bool :=
         match_segments dot p' path ||
         match path with
         | [] => false
         | name :: path' => wildcard_takes dot name && descend path'
         end) path
  end.

(** [glob_match dot pattern path]: some brace alternative of [pattern]
    matches the whole of [path]. *)
Definition glob_match (dot : bool) (pattern path : string) : bool :=
  existsb
    (fun alt => match_segments dot (parse_pattern alt) (split_path (chars path)))
    (expand_braces (chars pattern)).

(** *** The same set of paths, in words

    A file under the directory [app] whose name ends in a dot followed by
    one of the extensions. *)

Definition has_extension (exts : list string) (name : list ascii) : bool :=
  existsb (fun ext => ends_with (DOT :: chars ext) name) exts.

Fixpoint last_name (path : list (list ascii)) : option (list ascii) :=
  match path with
  | [] => None
  | [name] => Some name
  | _ :: path' => last_name path'
  end.

Definition file_under (dir : string) (exts : list string)
  (path : list (list ascii)) : bool :=
  match path with
  | top :: below =>
      bool_decide (top = chars dir) &&
      match last_name below with
      | Some name => has_extension exts name
      | None => false
      end
  | [] => false
  end.

(** Every name below the top directory is one a wildcard may stand
    for. *)
Definition wildcards_reach (dot : bool) (path : list (list ascii)) : bool :=
  match path with
  | _ :: below => forallb (wildcard_takes dot) below
  | [] => true
  end.

End Glob.

(** ** The repository as a whole: where the files sit *)

Module Repository.
Import Text.

(** The front-end lives in one directory of the repository; both
    configurations are read from there, so paths in them are relative to
    it. *)
Definition project_root : string := "nba-tracker-frontend".

Definition page_source_path : string := "nba-tracker-frontend/app/page.tsx".

(** A path of the repository, seen from the directory [root]. *)
Definition relative_to (root path : string) : option string :=
  text <$> strip_prefix (chars root ++ [Glob.SLASH]) (chars path).

Definition source_extensions : list string := ["js"; "ts"; "jsx"; "tsx"].

(** The files, out of [files], that some pattern of the content list
    selects for scanning. *)
Definition scanned (dot : bool) (globs files : list string) : list string :=
  filter (fun f => existsb (fun g => Glob.glob_match dot g f) globs) files.




(** The first name of a path, its top directory when it has more than
    one name. *)
Definition top_directory (path : string) : option string :=
  text <$> head (Glob.split_path (chars path)).

End Repository.

(** ** Expected values *)

Module Expected.
Import Jsx Page.

Definition heading_node : node :=
  Element (Host "h1") {[ "className" := "text-4xl font-bold mb-6" ]}
    [ TextNode title_text ].

Definition paragraph_node : node :=
  Element (Host "p")
    {[ "className" := "text-lg text-gray-600 dark:text-gray-300 max-w-xl" ]}
    [ TextNode description_text ].

Definition main_props : gmap string string :=
  {[ "className" :=
       "flex min-h-screen flex-col items-center justify-center p-12 text-center" ]}.

Definition home_markup : node :=
  Element (Host "main") main_props [ heading_node; paragraph_node ].

End Expected.

(** * Properties *)

(** ** The page component *)

Section PageProperties.
Import Text Jsx Page Expected.

(** The white space between the tags is dropped by text cleaning. *)
Lemma clean_indentation :
  clean_text (nl +:+ "      ") = "" /\ clean_text (nl +:+ "    ") = "".
Proof. split; vm_compute; reflexivity. Qed.

(** The paragraph's text loses its line breaks and its indentation. *)
Lemma clean_description :
  clean_text
    (nl +:+
     "        Track and review questionable referee decisions in the final moments of NBA games."
     +:+ nl +:+ "      ") = description_text.
Proof. vm_compute. reflexivity. Qed.

(** Text on one line is kept as it is. *)
Lemma clean_title : clean_text "NBA Bad Call Tracker" = title_text.
Proof. vm_compute. reflexivity. Qed.

(** Every tag of the page is a host tag, so no identifier is read and
    the scope does not matter. *)
Lemma eval_home_jsx (scope : gset string) :
  eval_jsx scope home_jsx = Normal home_markup.
Proof. vm_compute. reflexivity. Qed.

Lemma Home_returns {V : Type} (arguments : list V) :
  Home arguments = Normal home_markup.
Proof. unfold Home. apply eval_home_jsx. Qed.

Lemma home_headings : select is_heading home_markup = [heading_node].
Proof. vm_compute. reflexivity. Qed.

Lemma home_paragraphs : select is_paragraph home_markup = [paragraph_node].
Proof. vm_compute. reflexivity. Qed.

End PageProperties.

Section PageClaims.
Import Text Jsx Page Expected.

(** C1: the markup that [Home] returns holds exactly one heading element:
    selecting the heading elements ([h1] to [h6]) of the whole tree gives a
    list of one node, an [h1] whose only child is the text
    "NBA Bad Call Tracker". *)
Theorem Home_single_heading {V : Type} (arguments : list V) :
  exists (markup h : node),
    Home arguments = Normal markup /\
    select is_heading markup = [h] /\
    List.length (select is_heading markup) = 1 /\
    node_type h = Some (Host "h1") /\
    node_children h = [TextNode "NBA Bad Call Tracker"] /\
    text_content h = "NBA Bad Call Tracker".
Proof.
  exists home_markup, heading_node.
  rewrite Home_returns, home_headings.
  repeat split.
Qed.

(** C2: the markup that [Home] returns holds exactly one paragraph element:
    selecting the [p] elements of the whole tree gives a list of one node,
    whose only child is the text "Track and review questionable referee
    decisions in the final moments of NBA games." *)
Theorem Home_single_paragraph {V : Type} (arguments : list V) :
  exists (markup p : node),
    Home arguments = Normal markup /\
    select is_paragraph markup = [p] /\
    List.length (select is_paragraph markup) = 1 /\
    node_type p = Some (Host "p") /\
    node_children p =
      [TextNode
         "Track and review questionable referee decisions in the final moments of NBA games."] /\
    text_content p =
      "Track and review questionable referee decisions in the final moments of NBA games.".
Proof.
  exists home_markup, paragraph_node.
  rewrite Home_returns, home_paragraphs.
  repeat split.
Qed.

(** C6: [Home] declares no parameter and is deterministic: whatever the
    arguments of two calls, of whatever types, both return the same
    completion, the fixed markup, and so the same displayed text. *)
Theorem Home_deterministic {V W : Type} (arguments1 : list V)
  (arguments2 : list W) :
  Home arguments1 = Home arguments2 /\
  Home arguments1 = Normal home_markup /\
  (text_content <$> Home arguments1) = (text_content <$> Home arguments2).
Proof.
  rewrite !Home_returns. repeat split.
Qed.

(** C7: a call of [Home] never fails: for all arguments it completes
    normally with a markup value and is no [Throw]; the same holds for
    evaluating its JSX literal in any scope of identifiers. *)
Theorem Home_never_throws {V : Type} (arguments : list V) :
  (exists markup : node, Home arguments = Normal markup) /\
  (forall e : js_error, Home arguments <> Throw e) /\
  (forall scope : gset string,
     exists markup : node, eval_jsx scope home_jsx = Normal markup).
Proof.
  split; [| split].
  - exists home_markup. apply Home_returns.
  - intros e. rewrite Home_returns. discriminate.
  - intros scope. exists home_markup. apply eval_home_jsx.
Qed.

(** C8: the root of the markup that [Home] returns is one [main] element
    and its children are exactly two, the heading first and the paragraph
    second. *)
Theorem Home_main_children {V : Type} (arguments : list V) :
  exists (props : gmap string string) (h p : node),
    Home arguments = Normal (Element (Host "main") props [h; p]) /\
    select is_heading (Element (Host "main") props [h; p]) = [h] /\
    select is_paragraph (Element (Host "main") props [h; p]) = [p] /\
    node_type h = Some (Host "h1") /\
    node_type p = Some (Host "p").
Proof.
  exists main_props, heading_node, paragraph_node.
  rewrite Home_returns.
  split; [reflexivity |].
  fold home_markup. rewrite home_headings, home_paragraphs.
  repeat split.
Qed.

End PageClaims.

(** The evaluation does have an abrupt branch: a tag that names an
    identifier out of scope throws, and the error passes through the
    enclosing elements. *)
Example unbound_component_throws :
  Jsx.eval_jsx Page.module_scope
    (Jsx.JSXElement "main" []
       [Jsx.JSXElement "Footer" [] []; Jsx.JSXText "x"])
  = Jsx.Throw (Jsx.ReferenceError "Footer").
Proof. vm_compute. reflexivity. Qed.

(** ** The framework configuration *)

Section NextConfigClaims.
Import Text NextConfig.

(** C3: the allowed-dev-origin list is the four strings
    "http://localhost:3000" to "http://localhost:3003", in that order, and
    nothing else: it has length four and no entry at index four. *)
Theorem allowedDevOrigins_exact :
  allowedDevOrigins (experimental module_exports) =
    [ "http://localhost:3000"; "http://localhost:3001";
      "http://localhost:3002"; "http://localhost:3003" ] /\
  List.length (allowedDevOrigins (experimental module_exports)) = 4 /\
  allowedDevOrigins (experimental module_exports) !! 0 =
    Some "http://localhost:3000" /\
  allowedDevOrigins (experimental module_exports) !! 1 =
    Some "http://localhost:3001" /\
  allowedDevOrigins (experimental module_exports) !! 2 =
    Some "http://localhost:3002" /\
  allowedDevOrigins (experimental module_exports) !! 3 =
    Some "http://localhost:3003" /\
  allowedDevOrigins (experimental module_exports) !! 4 = None.
Proof. repeat split. Qed.

(** C9: every allowed origin begins with "http://localhost:" and none
    with "https"; what follows the prefix is a port number, the ports are
    3000, 3001, 3002 and 3003, pairwise distinct, and the list of origins
    has no duplicate. *)
Theorem allowedDevOrigins_localhost_distinct :
  Forall (fun o => begins_with "http://localhost:" o = true)
    (allowedDevOrigins (experimental module_exports)) /\
  Forall (fun o => begins_with "https" o = false)
    (allowedDevOrigins (experimental module_exports)) /\
  map localhost_port (allowedDevOrigins (experimental module_exports)) =
    [Some 3000%N; Some 3001%N; Some 3002%N; Some 3003%N] /\
  NoDup (map localhost_port (allowedDevOrigins (experimental module_exports))) /\
  NoDup (allowedDevOrigins (experimental module_exports)).
Proof.
  split; [| split; [| split; [| split]]].
  - repeat constructor.
  - repeat constructor.
  - vm_compute. reflexivity.
  - refine (bool_decide_unpack _ _). vm_compute. exact I.
  - refine (bool_decide_unpack _ _). vm_compute. exact I.
Qed.

End NextConfigClaims.

(** ** The glob language *)

Section GlobLemmas.
Import Text Glob.

Lemma match_tokens_literal (l s : list ascii) :
  match_tokens (map Lit l) s = bool_decide (s = l).
Proof.
  revert s. induction l as [|c l IH]; intros s.
  - cbn [map match_tokens]. apply bool_decide_ext. reflexivity.
  - destruct s as [|d s]; cbn [map match_tokens].
    + symmetry. apply bool_decide_eq_false_2. discriminate.
    + rewrite IH. unfold is_char.
      destruct (Ascii.eqb_spec c d) as [->|Hne]; cbn [andb].
      * apply bool_decide_ext. split; congruence.
      * symmetry. apply bool_decide_eq_false_2. congruence.
Qed.

Lemma match_segment_literal (dot : bool) (l s : list ascii) :
  match_segment dot (map Lit l) s = bool_decide (s = l).
Proof.
  destruct l as [|c l].
  - exact (match_tokens_literal [] s).
  - exact (match_tokens_literal (c :: l) s).
Qed.

(** A star before literal text matches the names that end in the text. *)
Lemma match_tokens_star_literal (l s : list ascii) :
  match_tokens (Star :: map Lit l) s = ends_with l s.
Proof.
  induction s as [|a s IH].
  - cbn [match_tokens ends_with]. rewrite match_tokens_literal. reflexivity.
  - cbn [match_tokens ends_with]. cbn [match_tokens] in IH.
    rewrite IH, match_tokens_literal. reflexivity.
Qed.

Lemma ends_with_suffix (suf l : list ascii) :
  ends_with suf l = true <-> exists pre, l = pre ++ suf.
Proof.
  induction l as [|a l IH]; cbn [ends_with].
  - rewrite orb_false_r, bool_decide_eq_true. split.
    + intros <-. exists []. reflexivity.
    + intros [pre Hpre]. symmetry in Hpre.
      apply app_eq_nil in Hpre as [_ ->]. reflexivity.
  - rewrite orb_true_iff, bool_decide_eq_true, IH. split.
    + intros [<- | [pre ->]].
      * exists []. reflexivity.
      * exists (a :: pre). reflexivity.
    + intros [[|b pre] Hpre]; cbn [app] in Hpre.
      * left. congruence.
      * right. exists pre. congruence.
Qed.

(** [**] followed by a last segment [*text]: the last name of the path
    ends in the text, and every name of the path is one a wildcard may
    stand for. *)
Lemma match_globstar_last (dot : bool) (l : list ascii)
  (path : list (list ascii)) :
  match_segments dot [Globstar; Seg (Star :: map Lit l)] path =
  match last_name path with
  | Some name => ends_with l name
  | None => false
  end && forallb (wildcard_takes dot) path.
Proof.
  induction path as [|name path IH].
  - reflexivity.
  - cbn [match_segments] in IH |- *. rewrite IH. clear IH.
    cbn [match_segment forallb]. rewrite match_tokens_star_literal.
    destruct path as [|name' path'].
    + cbn [last_name forallb].
      rewrite (bool_decide_eq_true_2 ([] = [])) by reflexivity.
      destruct (wildcard_takes dot name), (ends_with l name); reflexivity.
    + rewrite (bool_decide_eq_false_2 (name' :: path' = [])) by discriminate.
      change (last_name (name :: name' :: path'))
        with (last_name (name' :: path')).
      destruct (last_name (name' :: path')) as [n|];
        [destruct (ends_with l n) |];
        destruct (wildcard_takes dot name), (ends_with l name),
          (forallb (wildcard_takes dot) (name' :: path'));
        reflexivity.
Qed.

(** A directory, then [**], then [*text]. *)
Lemma match_dir_globstar_last (dot : bool) (d l : list ascii)
  (path : list (list ascii)) :
  match_segments dot [Seg (map Lit d); Globstar; Seg (Star :: map Lit l)] path =
  match path with
  | top :: below =>
      bool_decide (top = d) &&
      (match last_name below with
       | Some name => ends_with l name
       | None => false
       end && forallb (wildcard_takes dot) below)
  | [] => false
  end.
Proof.
  destruct path as [|top below]; [reflexivity |].
  change (match_segments dot
            [Seg (map Lit d); Globstar; Seg (Star :: map Lit l)] (top :: below))
    with (match_segment dot (map Lit d) top &&
          match_segments dot [Globstar; Seg (Star :: map Lit l)] below).
  rewrite match_segment_literal, match_globstar_last. reflexivity.
Qed.

Lemma existsb_map_compose {A B : Type} (f : A -> B) (p : B -> bool)
  (l : list A) :
  existsb (fun a => p (f a)) l = existsb p (map f l).
Proof.
  induction l as [|a l IH]; cbn [existsb map]; [reflexivity |].
  rewrite IH. reflexivity.
Qed.

(** The content pattern, braces expanded and parsed. *)
Lemma content_pattern_alternatives :
  map parse_pattern (expand_braces (chars "./app/**/*.{js,ts,jsx,tsx}")) =
  map (fun ext =>
         [Seg (map Lit (chars "app")); Globstar;
          Seg (Star :: map Lit (DOT :: chars ext))])
      Repository.source_extensions.
Proof. vm_compute. reflexivity. Qed.

(** In this model the content pattern selects the files under [app] with
    one of the four extensions, reached through names that the wildcards
    may stand for. *)
Lemma content_pattern_meaning (dot : bool) (path : string) :
  glob_match dot "./app/**/*.{js,ts,jsx,tsx}" path =
  file_under "app" Repository.source_extensions (split_path (chars path)) &&
  wildcards_reach dot (split_path (chars path)).
Proof.
  unfold glob_match.
  rewrite (existsb_map_compose parse_pattern
             (fun p => match_segments dot p (split_path (chars path)))).
  rewrite content_pattern_alternatives.
  generalize (split_path (chars path)). intros segs.
  set (pat := fun ext : string => _).
  unfold Repository.source_extensions. cbn [map existsb].
  subst pat. cbn beta. rewrite !match_dir_globstar_last.
  unfold file_under, wildcards_reach, has_extension.
  destruct segs as [|top below]; [reflexivity |].
  cbn [existsb].
  destruct (bool_decide (top = chars "app")); [| reflexivity].
  cbn [andb].
  destruct (last_name below) as [name|]; [| reflexivity].
  destruct (ends_with (DOT :: chars "js") name),
    (ends_with (DOT :: chars "ts") name),
    (ends_with (DOT :: chars "jsx") name),
    (ends_with (DOT :: chars "tsx") name),
    (forallb (wildcard_takes dot) below);
    reflexivity.
Qed.

(** *** Paths built from names *)








End GlobLemmas.

(** ** The CSS-utility configuration *)

Section TailwindConfigClaims.
Import Text Glob TailwindConfig Repository.



(** C5: [theme.extend] is the empty object (it has no key at all) and
    [plugins] is the empty list. *)
Theorem theme_extend_and_plugins_empty :
  extend (theme module_exports) = ∅ /\
  dom (extend (theme module_exports)) = (∅ : gset string) /\
  (forall key : string, extend (theme module_exports) !! key = None) /\
  plugins module_exports = [] /\
  List.length (plugins module_exports) = 0.
Proof.
  split; [reflexivity |].
  split; [apply dom_empty_L |].
  split; [intros key; apply lookup_empty |].
  split; reflexivity.
Qed.

(** C10: seen from the front-end directory, the page component's file is
    app/page.tsx, and the single content pattern matches it, whatever the
    scanner's [dot] option: the page is in the scanned set. *)
Theorem page_file_is_scanned :
  relative_to project_root page_source_path = Some "app/page.tsx" /\
  content module_exports = ["./app/**/*.{js,ts,jsx,tsx}"] /\
  forall dot : bool,
    glob_match dot "./app/**/*.{js,ts,jsx,tsx}" "app/page.tsx" = true /\
    scanned dot (content module_exports) ["app/page.tsx"] = ["app/page.tsx"].
Proof.
  split; [vm_compute; reflexivity |].
  split; [reflexivity |].
  intros dot. split.
  - rewrite content_pattern_meaning. destruct dot; vm_compute; reflexivity.
  - destruct dot; vm_compute; reflexivity.
Qed.

End TailwindConfigClaims.

(** The pattern is anchored at the front-end directory: the same file
    named from the repository root is not matched, nor is a file outside
    [app] or one with another extension; and [**] does not step through
    [..] or [.], even with the [dot] option on. *)
Example content_pattern_rejects :
  map (Glob.glob_match true "./app/**/*.{js,ts,jsx,tsx}")
    [ "nba-tracker-frontend/app/page.tsx"; "pages/index.tsx";
      "app/globals.css"; "app"; "app/../pages/index.tsx"; "app/./page.tsx" ]
  = [false; false; false; false; false; false].
Proof. vm_compute. reflexivity. Qed.

(** It reaches any depth below [app]. *)
Example content_pattern_accepts :
  map (Glob.glob_match false "./app/**/*.{js,ts,jsx,tsx}")
    [ "app/page.tsx"; "app/layout.js"; "app/games/[id]/page.jsx";
      "app/lib/api.ts" ]
  = [true; true; true; true].
Proof. vm_compute. reflexivity. Qed.

(** ** Further properties of the page and of the content list *)

Section FurtherProperties.
Import Text Jsx Page Glob Repository.

(** The markup that [Home] returns has three elements, [main], [h1] and
    [p].  Each has exactly two props, [className] and [children]; the
    value of [className] is the class string of the source, and apart from
    [children] no element has any other prop. *)
Theorem Home_elements_className_only {V : Type} (arguments : list V) :
  exists markup : node,
    Home arguments = Normal markup /\
    map (fun n => (node_type n, prop_names n, node_attributes n))
      (elements markup) =
      [ (Some (Host "main"), ["className"; "children"],
         [("className",
           "flex min-h-screen flex-col items-center justify-center p-12 text-center")]);
        (Some (Host "h1"), ["className"; "children"],
         [("className", "text-4xl font-bold mb-6")]);
        (Some (Host "p"), ["className"; "children"],
         [("className", "text-lg text-gray-600 dark:text-gray-300 max-w-xl")]) ].
Proof.
  exists Expected.home_markup. split.
  - apply Home_returns.
  - vm_compute. reflexivity.
Qed.

(** Nothing outside the directory [app] is scanned: a path whose first
    name is not [app] is matched by no pattern of the content list,
    whatever the scanner's [dot] option.  The directories [pages] and
    [components], which the configuration names in a comment as not yet
    included, are such paths. *)
Theorem content_scans_only_app (dot : bool) (path : string) :
  top_directory path <> Some "app" ->
  existsb (fun g => glob_match dot g path)
    (TailwindConfig.content TailwindConfig.module_exports) = false.
Proof.
  intros Htop.
  cbn [TailwindConfig.content TailwindConfig.module_exports existsb].
  rewrite orb_false_r, content_pattern_meaning.
  unfold top_directory in Htop. unfold file_under.
  destruct (split_path (chars path)) as [|top below]; [reflexivity |].
  rewrite bool_decide_eq_false_2; [reflexivity |].
  intros ->. apply Htop. reflexivity.
Qed.

Lemma content_scans_only_app_witness :
  top_directory "pages/index.tsx" <> Some "app" /\
  top_directory "components/Scoreboard.tsx" <> Some "app" /\
  existsb (fun g => glob_match true g "pages/index.tsx")
    (TailwindConfig.content TailwindConfig.module_exports) = false /\
  existsb (fun g => glob_match true g "components/Scoreboard.tsx")
    (TailwindConfig.content TailwindConfig.module_exports) = false.
Proof.
  assert (Hpages : top_directory "pages/index.tsx" <> Some "app")
    by (vm_compute; discriminate).
  assert (Hcomponents : top_directory "components/Scoreboard.tsx" <> Some "app")
    by (vm_compute; discriminate).
  split; [exact Hpages |].
  split; [exact Hcomponents |].
  split.
  - exact (content_scans_only_app true "pages/index.tsx" Hpages).
  - exact (content_scans_only_app true "components/Scoreboard.tsx" Hcomponents).
Defined.

End FurtherProperties.
